(** * SSO-1 oracle function: a shallow embedding of the off-chain pipeline

    The development follows the two Python modules of the repository:

    - [oracle/offchain/function/main.py], the Switchboard function entry
      point (data structures, market-context derivation, signal assessment,
      attestation capture, orchestration);
    - [oracle/offchain/scoring/__init__.py], the scoring module, embedded
      below as [Module Scoring].

    Python integers are unbounded and are modelled by [Z]; [bytes] values by
    lists of [byte]; [os.environ] by a finite map from names to strings.
    Every function of the source writes to a [logging] logger, and the
    orchestrator reads the process environment, so functions are embedded in
    a small state-and-exception monad [Py] over a [World] that holds the
    environment and the log records handed to the loggers so far. *)

From Stdlib Require Import ZArith List String Ascii Lia.
From Stdlib.Strings Require Import Byte.
From Stdlib.Floats Require Import PrimFloat.
From stdpp Require Import base option gmap strings list.

Local Open Scope string_scope.
Local Open Scope list_scope.
Local Open Scope Z_scope.

(** ** Python values *)

(** A [bytes] object. *)
Definition bytes : Type := list byte.

(** [bytes(n)]: [n] zero bytes. *)
Definition zero_bytes (n : nat) : bytes := repeat x00 n.

(** [b.ljust(width, fill)] on bytes. *)
Definition bytes_ljust (width : nat) (fill : byte) (b : bytes) : bytes :=
  b ++ repeat fill (width - length b)%nat.

(** *** Strings of the environment

    A [str] that [os.getenv] yields is modelled by the bytes the variable
    holds, as a [string]. Python decodes them as UTF-8 with the
    [surrogateescape] handler: a well-formed sequence is one character, and
    every byte outside one is a character of its own, a lone surrogate. The
    bytes and the [str] determine each other. The literals of the source are
    ASCII. *)

Definition byte_value (b : byte) : Z := Z.of_N (Byte.to_N b).

Definition in_range (lo hi x : Z) : bool := (lo <=? x) && (x <=? hi).

(** A continuation byte. *)
Definition continuation (x : Z) : bool := in_range 128 191 x.

(** The number of bytes of the well-formed UTF-8 sequence that [l] starts
    with, 0 when it starts with none (Unicode, table 3-7: no overlong form,
    no surrogate, nothing above U+10FFFF). *)
Definition utf8_sequence_length (l : list Z) : nat :=
  match l with
  | [] => 0%nat
  | b0 :: rest =>
      if in_range 0 127 b0 then 1%nat
      else if in_range 194 223 b0 then
        match rest with
        | b1 :: _ => if continuation b1 then 2%nat else 0%nat
        | _ => 0%nat
        end
      else if in_range 224 239 b0 then
        match rest with
        | b1 :: b2 :: _ =>
            let second :=
              if b0 =? 224 then in_range 160 191 b1
              else if b0 =? 237 then in_range 128 159 b1
              else continuation b1 in
            if second && continuation b2 then 3%nat else 0%nat
        | _ => 0%nat
        end
      else if in_range 240 244 b0 then
        match rest with
        | b1 :: b2 :: b3 :: _ =>
            let second :=
              if b0 =? 240 then in_range 144 191 b1
              else if b0 =? 244 then in_range 128 143 b1
              else continuation b1 in
            if second && continuation b2 && continuation b3 then 4%nat else 0%nat
        | _ => 0%nat
        end
      else 0%nat
  end.

(** The decoding of at most [fuel] characters: whether every byte read was
    part of a well-formed sequence, and the number of characters. *)
Fixpoint utf8_scan (fuel : nat) (l : list Z) : bool * nat :=
  match fuel, l with
  | O, _ => (true, O)
  | _, [] => (true, O)
  | S fuel', _ :: _ =>
      match utf8_sequence_length l with
      | O => (false, S (utf8_scan fuel' (drop 1 l)).2)
      | n => let rest := utf8_scan fuel' (drop n l) in (rest.1, S rest.2)
      end
  end.

Definition str_bytes (s : string) : list Z :=
  map byte_value (list_byte_of_string s).

(** [len(s)]: the number of characters. *)
Definition str_len (s : string) : nat :=
  (utf8_scan (length (str_bytes s)) (str_bytes s)).2.

Fixpoint string_repeat (c : ascii) (n : nat) : string :=
  match n with
  | O => EmptyString
  | S n' => String c (string_repeat c n')
  end.

(** [s.ljust(width, fill)] on strings, for an ASCII [fill]. *)
Definition str_ljust (width : nat) (fill : ascii) (s : string) : string :=
  String.append s (string_repeat fill (width - str_len s)%nat).

(** [s.encode()]: the UTF-8 bytes of [s], or [None] for the
    [UnicodeEncodeError] (a [ValueError]) that a lone surrogate raises. *)
Definition str_encode (s : string) : option bytes :=
  if (utf8_scan (length (str_bytes s)) (str_bytes s)).1
  then Some (list_byte_of_string s)
  else None.

Arguments str_encode : simpl never.
Arguments str_ljust : simpl never.
Arguments str_len : simpl never.

(** ** Data structures of [main.py] (they mirror the on-chain definitions) *)

Inductive SignalType : Type :=
  | MOMENTUM | MEAN_REVERSION | VOLATILITY | LIQUIDITY | BREAKOUT
  | RISK | CORRELATION | ARBITRAGE | SENTIMENT.

(** The integer value of the [IntEnum] member. *)
Definition SignalType_value (t : SignalType) : Z :=
  match t with
  | MOMENTUM => 0 | MEAN_REVERSION => 1 | VOLATILITY => 2 | LIQUIDITY => 3
  | BREAKOUT => 4 | RISK => 5 | CORRELATION => 6 | ARBITRAGE => 7
  | SENTIMENT => 8
  end.

Inductive Direction : Type := NEUTRAL | LONG | SHORT.

Definition Direction_value (d : Direction) : Z :=
  match d with NEUTRAL => 0 | LONG => 1 | SHORT => 2 end.

(** [d.name] *)
Definition Direction_name (d : Direction) : string :=
  match d with NEUTRAL => "NEUTRAL" | LONG => "LONG" | SHORT => "SHORT" end.

Record MarketContext : Type := {
  slot : Z;
  asset_pair : bytes;
  price : Z;
  volume_24h : Z;
  volatility_1h : Z;
  liquidity_depth : Z;
  source_bitmap : Z;
  source_count : Z
}.

Record SignalAssessment : Type := {
  signal_type : SignalType;
  direction : Direction;
  magnitude : Z;
  confidence : Z;
  valid_from_slot : Z;
  valid_until_slot : Z;
  model_version : bytes
}.

Record TeeReceipt : Type := {
  enclave_signer : bytes;
  attestation_hash : bytes;
  mr_enclave : bytes;
  timestamp_slot : Z;
  platform_version : Z
}.

Record FunctionResult : Type := {
  market_context : MarketContext;
  signal_assessment : SignalAssessment;
  tee_receipt : TeeReceipt
}.

(** ** Exceptions, the world and the [Py] monad *)

(** The exceptions a call can end with. The source defines no exception class
    and has no [raise] statement: the only exception its own calls can raise
    is the [ValueError] of the builtins [int], [bytes.fromhex] and
    [str.encode] (whose [UnicodeEncodeError] is a [ValueError]). The other
    constructors are the error names of the specification's taxonomy, kept
    here so that statements about them can be written. *)
Inductive Exception : Type :=
  | ValueError
  | InsufficientSources
  | StaleData
  | InvalidValidityWindow
  | UnverifiedEnclave
  | AttestationVerificationFailed
  | StaleAttestation
  | PipelineTimeout.

Inductive Outcome (A : Type) : Type :=
  | Returned (a : A)
  | Raised (e : Exception).
Arguments Returned {A} a.
Arguments Raised {A} e.

Inductive Level : Type := LVL_INFO | LVL_WARNING | LVL_ERROR.

(** A value interpolated in a log message. *)
Inductive LogArg : Type :=
  | ArgStr (s : string)
  | ArgInt (n : Z)
  | ArgResult (r : FunctionResult)
  | ArgException (e : Exception).

(** One call of a logger method: the logger's name, the level, the message
    text as the source writes it (an f-string keeps its placeholders) and the
    values interpolated, in order. *)
Record LogRecord : Type := {
  lr_logger : string;
  lr_level : Level;
  lr_message : string;
  lr_args : list LogArg
}.

Record World : Type := {
  environ : gmap string string;
  records : list LogRecord
}.

Definition Py (A : Type) : Type := World → Outcome A * World.

Definition Py_return {A : Type} (a : A) : Py A := λ w, (Returned a, w).

Definition Py_bind {A B : Type} (m : Py A) (k : A → Py B) : Py B :=
  λ w, match m w with
       | (Returned a, w') => k a w'
       | (Raised e, w') => (Raised e, w')
       end.

Definition Py_raise {A : Type} (e : Exception) : Py A := λ w, (Raised e, w).

Declare Scope py_scope.
Delimit Scope py_scope with py.
Notation "x <- m ;; k" := (Py_bind m (λ x, k))
  (at level 100, m at next level, right associativity) : py_scope.
Notation "m ;; k" := (Py_bind m (λ _, k))
  (at level 100, right associativity) : py_scope.
Local Open Scope py_scope.

(** The value a call returns and the world it leaves. *)
Definition outcome {A : Type} (m : Py A) (w : World) : Outcome A := fst (m w).
Definition world_after {A : Type} (m : Py A) (w : World) : World := snd (m w).

(** [logger.<level>(message)] *)
Definition log (name : string) (lvl : Level) (msg : string)
    (args : list LogArg) : Py unit :=
  λ w, (Returned tt,
        {| environ := environ w;
           records := records w ++
             [{| lr_logger := name; lr_level := lvl;
                 lr_message := msg; lr_args := args |}] |}).

(** [os.getenv(key, default)] *)
Definition getenv (key dflt : string) : Py string :=
  λ w, (Returned (default dflt (environ w !! key)), w).

(** A builtin that returns or raises [ValueError]. *)
Definition of_option {A : Type} (o : option A) : Py A :=
  match o with
  | Some a => Py_return a
  | None => Py_raise ValueError
  end.

(** [try: body / except Exception as e: handler(e)] *)
Definition try_except {A : Type} (body : Py A) (handler : Exception → Py A)
    : Py A :=
  λ w, match body w with
       | (Returned a, w') => (Returned a, w')
       | (Raised e, w') => handler e w'
       end.

(** ** The scoring module, [oracle/offchain/scoring/__init__.py] *)

Module Scoring.

(** [ScoringConfig]; [magnitude_scale_factor] is a Python float. *)
Record ScoringConfig : Type := {
  min_sources_for_confidence : Z;
  min_liquidity_depth : Z;
  magnitude_scale_factor : float;
  default_validity_slots : Z;
  max_validity_slots : Z
}.

(** [ScoringConfig()], the dataclass with its field defaults. *)
Definition ScoringConfig_default : ScoringConfig := {|
  min_sources_for_confidence := 3;
  min_liquidity_depth := 100000;
  magnitude_scale_factor := 1.0%float;
  default_validity_slots := 25;
  max_validity_slots := 100
|}.

(** The module declares its own copies of the two enumerations. *)
Inductive SignalType : Type :=
  | MOMENTUM | MEAN_REVERSION | VOLATILITY | LIQUIDITY | BREAKOUT
  | RISK | CORRELATION | ARBITRAGE | SENTIMENT.

Inductive Direction : Type := NEUTRAL | LONG | SHORT.

(** [logging.getLogger("sso1.scoring")] *)
Definition logger : string := "sso1.scoring".

Definition compute_confidence (source_count liquidity_depth volatility : Z)
    (config : ScoringConfig) : Py Z :=
  log logger LVL_WARNING "compute_confidence: NOT IMPLEMENTED - returning 0" [] ;;
  Py_return 0.

Definition compute_direction (price volume volatility : Z)
    (signal_type : SignalType) : Py Direction :=
  log logger LVL_WARNING "compute_direction: NOT IMPLEMENTED - returning NEUTRAL" [] ;;
  Py_return NEUTRAL.

Definition compute_magnitude (price volume volatility : Z)
    (direction : Direction) (config : ScoringConfig) : Py Z :=
  log logger LVL_WARNING "compute_magnitude: NOT IMPLEMENTED - returning 50" [] ;;
  Py_return 50.

Definition determine_signal_type (volatility volume liquidity_depth : Z)
    : Py SignalType :=
  log logger LVL_WARNING "determine_signal_type: NOT IMPLEMENTED - returning MOMENTUM" [] ;;
  Py_return MOMENTUM.

Record ScoringResult : Type := {
  signal_type : SignalType;
  direction : Direction;
  magnitude : Z;
  confidence : Z
}.

(** [config] is [None] when the caller supplies none. *)
Definition score_market_context
    (slot price volume_24h volatility_1h liquidity_depth source_count : Z)
    (config : option ScoringConfig) : Py ScoringResult :=
  let config :=
    match config with
    | None => ScoringConfig_default
    | Some c => c
    end in
  signal_type <- determine_signal_type volatility_1h volume_24h liquidity_depth ;;
  direction <- compute_direction price volume_24h volatility_1h signal_type ;;
  magnitude <- compute_magnitude price volume_24h volatility_1h direction config ;;
  confidence <- compute_confidence source_count liquidity_depth volatility_1h config ;;
  Py_return {| signal_type := signal_type;
               direction := direction;
               magnitude := magnitude;
               confidence := confidence |}.

End Scoring.

(** ** The functions of [main.py] *)

(** [logging.getLogger("sso1.function")] *)
Definition logger : string := "sso1.function".

(** The raw market data: a dict from the four keys ["sources"], ["prices"],
    ["volumes"] and ["timestamps"] to lists, one entry per source. *)
Definition RawData : Type := gmap string (list Z).

(** [async def fetch_market_data]; the coroutine is awaited at once by its
    only caller, so it is embedded as an ordinary call. *)
Definition fetch_market_data (asset_pair : string) : Py RawData :=
  log logger LVL_WARNING "fetch_market_data: NOT IMPLEMENTED - returning mock data" [] ;;
  Py_return (<["sources" := []]> (<["prices" := []]> (<["volumes" := []]>
              (<["timestamps" := []]> (∅ : gmap string (list Z)))))).

Definition derive_market_context (raw_data : RawData) (asset_pair : bytes)
    (current_slot : Z) : Py MarketContext :=
  log logger LVL_WARNING "derive_market_context: NOT IMPLEMENTED - returning placeholder" [] ;;
  Py_return {| slot := current_slot;
               asset_pair := asset_pair;
               price := 0;
               volume_24h := 0;
               volatility_1h := 0;
               liquidity_depth := 0;
               source_bitmap := 0;
               source_count := 0 |}.

Definition compute_signal_assessment (market_context : MarketContext)
    (model_version : bytes) (validity_slots : Z) : Py SignalAssessment :=
  log logger LVL_WARNING "compute_signal_assessment: NOT IMPLEMENTED - returning placeholder" [] ;;
  let current_slot := slot market_context in
  Py_return {| signal_type := MOMENTUM;
               direction := NEUTRAL;
               magnitude := 50;
               confidence := 0;
               valid_from_slot := current_slot;
               valid_until_slot := current_slot + validity_slots;
               model_version := model_version |}.

Definition capture_tee_attestation (market_context : MarketContext)
    (signal_assessment : SignalAssessment) (current_slot : Z) : Py TeeReceipt :=
  log logger LVL_WARNING "capture_tee_attestation: NOT IMPLEMENTED - returning placeholder" [] ;;
  Py_return {| enclave_signer := zero_bytes 32;
               attestation_hash := zero_bytes 32;
               mr_enclave := zero_bytes 32;
               timestamp_slot := current_slot;
               platform_version := 0 |}.

Definition get_current_slot : Py Z :=
  log logger LVL_WARNING "get_current_slot: NOT IMPLEMENTED - returning 0" [] ;;
  Py_return 0.

Definition submit_result (result : FunctionResult) : Py unit :=
  log logger LVL_WARNING "submit_result: NOT IMPLEMENTED" [] ;;
  log logger LVL_INFO "Result: {result}" [ArgResult result].

(** The request dict, with its two keys. *)
Record Request : Type := {
  req_asset_pair : string;
  req_validity_slots : Z
}.

Section Orchestration.

(** The builtins [int(s)] and [bytes.fromhex(s)]; [None] stands for the
    [ValueError] they raise on a malformed string. *)
Variable py_int : string → option Z.
Variable bytes_fromhex : string → option bytes.

Definition parse_switchboard_request : Py Request :=
  log logger LVL_WARNING "parse_switchboard_request: NOT IMPLEMENTED" [] ;;
  asset_pair_str <- getenv "DEFAULT_ASSET_PAIR" "SOL/USDC" ;;
  validity_str <- getenv "DEFAULT_VALIDITY_SLOTS" "25" ;;
  validity_slots <- of_option (py_int validity_str) ;;
  Py_return {| req_asset_pair := asset_pair_str;
               req_validity_slots := validity_slots |}.

Definition execute_function : Py FunctionResult :=
  log logger LVL_INFO "SSO-1 Function execution starting" [] ;;
  request <- parse_switchboard_request ;;
  let asset_pair_str := req_asset_pair request in
  let validity_slots := req_validity_slots request in
  log logger LVL_INFO "Processing signal for {asset_pair_str}" [ArgStr asset_pair_str] ;;
  asset_pair_utf8 <- of_option (str_encode asset_pair_str) ;;
  let asset_pair := take 32 (bytes_ljust 32 x00 asset_pair_utf8) in
  model_version_str <- getenv "MODEL_VERSION" "00000001" ;;
  model_version_hex <- of_option (bytes_fromhex (str_ljust 16 "0" model_version_str)) ;;
  let model_version := take 8 model_version_hex in
  current_slot <- get_current_slot ;;
  log logger LVL_INFO "Current slot: {current_slot}" [ArgInt current_slot] ;;
  raw_data <- fetch_market_data asset_pair_str ;;
  market_context <- derive_market_context raw_data asset_pair current_slot ;;
  log logger LVL_INFO "MarketContext derived" [] ;;
  signal_assessment <-
    compute_signal_assessment market_context model_version validity_slots ;;
  log logger LVL_INFO
    "SignalAssessment computed: direction={signal_assessment.direction.name}, confidence={signal_assessment.confidence}"
    [ArgStr (Direction_name (direction signal_assessment));
     ArgInt (confidence signal_assessment)] ;;
  tee_receipt <- capture_tee_attestation market_context signal_assessment current_slot ;;
  log logger LVL_INFO "TEE attestation captured" [] ;;
  let result := {| market_context := market_context;
                   signal_assessment := signal_assessment;
                   tee_receipt := tee_receipt |} in
  log logger LVL_INFO "SSO-1 Function execution complete" [] ;;
  Py_return result.

(** [main]: the exit code. *)
Definition main : Py Z :=
  try_except
    (log logger LVL_INFO (string_repeat "=" 60) [] ;;
     log logger LVL_INFO "SSO-1 Switchboard Function" [] ;;
     log logger LVL_INFO "Specification: v1.2 (January 2026)" [] ;;
     log logger LVL_INFO (string_repeat "=" 60) [] ;;
     result <- execute_function ;;
     submit_result result ;;
     Py_return 0)
    (λ e,
     log logger LVL_ERROR "Function execution failed: {e}" [ArgException e] ;;
     Py_return 1).

End Orchestration.

(** ** The specification's side of the comparisons

    Nothing below is called by the source. These definitions follow the
    specification's words and are what the theorems compare the functions
    above with. *)

Module Spec.

(** *** SHA-256 (FIPS 180-4)

    Modelled from the spec: the source computes no hash; the receipt's
    [attestation_hash] is documented as a SHA-256 digest. Words are 32-bit
    integers in [Z], reduced after each addition. *)

Definition w32 (x : Z) : Z := x mod 2 ^ 32.

Definition rotr (n x : Z) : Z :=
  Z.lor (Z.shiftr x n) (w32 (Z.shiftl x (32 - n))).

Definition Ch (x y z : Z) : Z :=
  Z.lxor (Z.land x y) (Z.land (Z.lxor x (2 ^ 32 - 1)) z).

Definition Maj (x y z : Z) : Z :=
  Z.lxor (Z.lxor (Z.land x y) (Z.land x z)) (Z.land y z).

Definition Sigma0 (x : Z) : Z :=
  Z.lxor (Z.lxor (rotr 2 x) (rotr 13 x)) (rotr 22 x).

Definition Sigma1 (x : Z) : Z :=
  Z.lxor (Z.lxor (rotr 6 x) (rotr 11 x)) (rotr 25 x).

Definition sigma0 (x : Z) : Z :=
  Z.lxor (Z.lxor (rotr 7 x) (rotr 18 x)) (Z.shiftr x 3).

Definition sigma1 (x : Z) : Z :=
  Z.lxor (Z.lxor (rotr 17 x) (rotr 19 x)) (Z.shiftr x 10).

(** The first sixty-four primes. *)
Definition primes64 : list Z :=
  [2; 3; 5; 7; 11; 13; 17; 19] ++ [23; 29; 31; 37; 41; 43; 47; 53] ++
  [59; 61; 67; 71; 73; 79; 83; 89] ++ [97; 101; 103; 107; 109; 113; 127; 131] ++
  [137; 139; 149; 151; 157; 163; 167; 173] ++
  [179; 181; 191; 193; 197; 199; 211; 223] ++
  [227; 229; 233; 239; 241; 251; 257; 263] ++
  [269; 271; 277; 281; 283; 293; 307; 311].

(** The integer cube root of [n], one bit at a time from bit [bits - 1]. *)
Fixpoint icbrt_bits (bits : nat) (n r : Z) : Z :=
  match bits with
  | O => r
  | S b =>
      let c := r + 2 ^ Z.of_nat b in
      if c * c * c <=? n then icbrt_bits b n c else icbrt_bits b n r
  end.

(** The round constants: the first 32 bits of the fractional parts of the
    cube roots of the primes. *)
Definition K256 : list Z :=
  Eval vm_compute in map (λ p, w32 (icbrt_bits 36 (p * 2 ^ 96) 0)) primes64.

(** The initial hash value: the same of the square roots of the first eight. *)
Definition H256 : list Z :=
  Eval vm_compute in map (λ p, w32 (Z.sqrt (p * 2 ^ 64))) (take 8 primes64).

Definition Z_of_byte (b : byte) : Z := Z.of_N (Byte.to_N b).

Definition byte_of_Z (x : Z) : byte :=
  match Byte.of_N (Z.to_N (x mod 256)) with
  | Some b => b
  | None => x00
  end.

(** [x] on [width] bytes, most significant byte first. *)
Fixpoint be_bytes (width : nat) (x : Z) : list Z :=
  match width with
  | O => []
  | S w => (Z.shiftr x (8 * Z.of_nat w) mod 256) :: be_bytes w x
  end.

(** Padding: the bit 1, zeros up to 56 modulo 64, the bit length on 64 bits. *)
Definition sha256_pad (msg : list Z) : list Z :=
  let len := Z.of_nat (length msg) in
  msg ++ [128] ++ repeat 0 (Z.to_nat ((55 - len) mod 64)) ++ be_bytes 8 (8 * len).

(** Big-endian 32-bit words of a byte sequence. *)
Fixpoint words_of_bytes (l : list Z) : list Z :=
  match l with
  | a :: b :: c :: d :: rest =>
      (Z.shiftl a 24 + Z.shiftl b 16 + Z.shiftl c 8 + d) :: words_of_bytes rest
  | _ => []
  end.

(** The message schedule: [n] more words after those of [w]. *)
Fixpoint schedule (n : nat) (w : list Z) : list Z :=
  match n with
  | O => w
  | S n' =>
      let t := length w in
      let x := w32 (sigma1 (nth (t - 2) w 0) + nth (t - 7) w 0 +
                    sigma0 (nth (t - 15) w 0) + nth (t - 16) w 0) in
      schedule n' (w ++ [x])
  end.

Record Registers : Type := {
  ra : Z; rb : Z; rc : Z; rd : Z; re : Z; rf : Z; rg : Z; rh : Z
}.

Definition round (s : Registers) (kw : Z * Z) : Registers :=
  let t1 := rh s + Sigma1 (re s) + Ch (re s) (rf s) (rg s) + kw.1 + kw.2 in
  let t2 := Sigma0 (ra s) + Maj (ra s) (rb s) (rc s) in
  {| ra := w32 (t1 + t2); rb := ra s; rc := rb s; rd := rc s;
     re := w32 (rd s + t1); rf := re s; rg := rf s; rh := rg s |}.

Definition registers_of (h : list Z) : Registers :=
  {| ra := nth 0 h 0; rb := nth 1 h 0; rc := nth 2 h 0; rd := nth 3 h 0;
     re := nth 4 h 0; rf := nth 5 h 0; rg := nth 6 h 0; rh := nth 7 h 0 |}.

Definition list_of (s : Registers) : list Z :=
  [ra s; rb s; rc s; rd s; re s; rf s; rg s; rh s].

(** One 16-word block folded into the hash value [h]. *)
Definition compress (h : list Z) (block : list Z) : list Z :=
  let s := fold_left round (combine K256 (schedule 48 block)) (registers_of h) in
  map (λ p : Z * Z, w32 (p.1 + p.2)) (combine h (list_of s)).

Fixpoint blocks (n : nat) (ws : list Z) : list (list Z) :=
  match n with
  | O => []
  | S n' => take 16 ws :: blocks n' (drop 16 ws)
  end.

Definition sha256 (msg : bytes) : bytes :=
  let ws := words_of_bytes (sha256_pad (map Z_of_byte msg)) in
  let h := fold_left compress (blocks (length ws / 16) ws) H256 in
  map byte_of_Z (concat (map (be_bytes 4) h)).

(** *** The canonical serialization (interfaces section of the specification)

    Fixed field order and width, little-endian integers:
    [MarketContext{slot:u64, asset_pair:32B, price:u64, volume_24h:u64,
    volatility_1h:u64, liquidity_depth:u64, source_bitmap:u32,
    source_count:u8}] followed by [SignalAssessment{signal_type:u8,
    direction:u8, magnitude:u8, confidence:u8, valid_from_slot:u64,
    valid_until_slot:u64, model_version:8B}]. *)

Fixpoint le_bytes (width : nat) (x : Z) : bytes :=
  match width with
  | O => []
  | S w => byte_of_Z x :: le_bytes w (Z.shiftr x 8)
  end.

Definition serialize_market_context (mc : MarketContext) : bytes :=
  le_bytes 8 (slot mc) ++ asset_pair mc ++ le_bytes 8 (price mc) ++
  le_bytes 8 (volume_24h mc) ++ le_bytes 8 (volatility_1h mc) ++
  le_bytes 8 (liquidity_depth mc) ++ le_bytes 4 (source_bitmap mc) ++
  le_bytes 1 (source_count mc).

Definition serialize_signal_assessment (sa : SignalAssessment) : bytes :=
  le_bytes 1 (SignalType_value (signal_type sa)) ++
  le_bytes 1 (Direction_value (direction sa)) ++
  le_bytes 1 (magnitude sa) ++ le_bytes 1 (confidence sa) ++
  le_bytes 8 (valid_from_slot sa) ++ le_bytes 8 (valid_until_slot sa) ++
  model_version sa.

Definition canonical_serialization (mc : MarketContext)
    (sa : SignalAssessment) : bytes :=
  serialize_market_context mc ++ serialize_signal_assessment sa.

(** The hash the specification binds a receipt to. *)
Definition spec_attestation_hash (mc : MarketContext) (sa : SignalAssessment)
    : bytes :=
  sha256 (canonical_serialization mc sa).

(** The validity window's end as the specification gives it. *)
Definition spec_valid_until_slot (current_slot requested max_validity : Z) : Z :=
  current_slot + Z.min requested max_validity.

(** *** The Context Builder's filters

    Modelled from the spec: the source has no freshness filter, no outlier
    rejection and no minimum of sources; these follow section 4.1. *)

(** One source's observation, as the entries of the raw data's four lists at
    one index. *)
Record Observation : Type := {
  obs_source_id : Z;
  obs_price : Z;
  obs_volume : Z;
  obs_slot : Z
}.

Fixpoint zip_observations (ids prices volumes slots : list Z)
    : list Observation :=
  match ids, prices, volumes, slots with
  | i :: ids', p :: prices', v :: volumes', t :: slots' =>
      {| obs_source_id := i; obs_price := p; obs_volume := v; obs_slot := t |}
      :: zip_observations ids' prices' volumes' slots'
  | _, _, _, _ => []
  end.

Definition observations (raw : gmap string (list Z)) : list Observation :=
  zip_observations (default [] (raw !! "sources")) (default [] (raw !! "prices"))
                   (default [] (raw !! "volumes"))
                   (default [] (raw !! "timestamps")).

(** The configured thresholds. *)
Record FilterConfig : Type := {
  max_age_slots : Z;
  max_deviation_percent : Z;
  min_sources : Z
}.

(** Freshness: not older than the threshold, relative to the current slot. *)
Definition fresh (cfg : FilterConfig) (current_slot : Z) (o : Observation)
    : bool :=
  current_slot - obs_slot o <=? max_age_slots cfg.

Fixpoint insert_sorted (x : Z) (l : list Z) : list Z :=
  match l with
  | [] => [x]
  | y :: l' => if x <=? y then x :: l else y :: insert_sorted x l'
  end.

(** The provisional median: the middle element of the sorted prices. *)
Definition median (l : list Z) : Z :=
  nth (length l / 2) (fold_right insert_sorted [] l) 0.

(** Outlier rejection: the price deviates from the median by no more than
    the configured percentage. *)
Definition within_band (cfg : FilterConfig) (med : Z) (o : Observation) : bool :=
  100 * Z.abs (obs_price o - med) <=? max_deviation_percent cfg * Z.abs med.

Definition fresh_observations (cfg : FilterConfig) (current_slot : Z)
    (raw : gmap string (list Z)) : list Observation :=
  List.filter (fresh cfg current_slot) (observations raw).

(** The observations that survive both filters. *)
Definition survivors (cfg : FilterConfig) (current_slot : Z)
    (raw : gmap string (list Z)) : list Observation :=
  let kept := fresh_observations cfg current_slot raw in
  let med := median (map obs_price kept) in
  List.filter (within_band cfg med) kept.

(** One bit per surviving source id. *)
Definition spec_source_bitmap (os : list Observation) : Z :=
  fold_right (λ o acc, Z.lor (Z.shiftl 1 (obs_source_id o)) acc) 0 os.

(** The number of one bits of a non-negative integer (Python's
    [int.bit_count]). *)
Fixpoint popcount_pos (p : positive) : Z :=
  match p with
  | xH => 1
  | xO q => popcount_pos q
  | xI q => 1 + popcount_pos q
  end.

Definition popcount (x : Z) : Z :=
  match x with
  | Z0 => 0
  | Zpos p => popcount_pos p
  | Zneg p => popcount_pos p
  end.

End Spec.

(** ** Sample inputs *)

(** A fresh process: no environment variable set, nothing logged. *)
Definition world0 : World := {| environ := ∅; records := [] |}.

(** The same environment after one record was logged. *)
Definition world1 : World :=
  {| environ := ∅;
     records := [{| lr_logger := logger; lr_level := LVL_INFO;
                    lr_message := "SSO-1 Switchboard Function";
                    lr_args := [] |}] |}.

(** The asset pair and model version of a default run: ["SOL/USDC"] padded
    to 32 bytes, and the bytes of the hexadecimal ["0000000100000000"]. *)
Definition sample_asset_pair : bytes :=
  take 32 (bytes_ljust 32 x00 (list_byte_of_string "SOL/USDC")).

Definition sample_model_version : bytes :=
  [x00; x00; x00; x01; x00; x00; x00; x00].

(** The context and the assessment a default run computes at slot 0. *)
Definition sample_context : MarketContext :=
  {| slot := 0; asset_pair := sample_asset_pair; price := 0; volume_24h := 0;
     volatility_1h := 0; liquidity_depth := 0; source_bitmap := 0;
     source_count := 0 |}.

Definition sample_assessment : SignalAssessment :=
  {| signal_type := MOMENTUM; direction := NEUTRAL; magnitude := 50;
     confidence := 0; valid_from_slot := 0; valid_until_slot := 25;
     model_version := sample_model_version |}.

(** A context at slot 1000 whose other fields are not the placeholder's. *)
Definition busy_context : MarketContext :=
  {| slot := 1000; asset_pair := sample_asset_pair; price := 1000000000;
     volume_24h := 1000000; volatility_1h := 1500; liquidity_depth := 500000;
     source_bitmap := 31; source_count := 5 |}.

(** Raw data in which two sources answered, both at the current slot 0 and
    with the same price. *)
Definition raw_two_sources : RawData :=
  <["sources" := [0; 1]]> (<["prices" := [1000000000; 1000000000]]>
  (<["volumes" := [500000; 500000]]> (<["timestamps" := [0; 0]]> ∅))).

(** Raw data whose three observations were all made at slot 0. *)
Definition raw_three_old : RawData :=
  <["sources" := [0; 1; 2]]> (<["prices" := [1000000000; 1000000000; 1000000000]]>
  (<["volumes" := [1; 1; 1]]> (<["timestamps" := [0; 0; 0]]> ∅))).

(** Raw data with the single source 3, observed at the current slot 0. *)
Definition raw_one_source : RawData :=
  <["sources" := [3]]> (<["prices" := [1000000000]]>
  (<["volumes" := [1000000]]> (<["timestamps" := [0]]> ∅))).

(** Thresholds: 150 slots of age, 5 percent of deviation, 3 sources. *)
Definition sample_filter : Spec.FilterConfig :=
  {| Spec.max_age_slots := 150; Spec.max_deviation_percent := 5;
     Spec.min_sources := 3 |}.


(** Stand-ins for the two builtins on the strings of a default run. *)
Definition sample_int (s : string) : option Z :=
  if String.eqb s "25" then Some 25 else None.

Definition sample_fromhex (s : string) : option bytes :=
  if String.eqb s "0000000100000000" then Some sample_model_version else None.

(** ** Names for what a run reads and writes *)

(** The three strings [execute_function] reads from the environment, each
    with the default of its [os.getenv] call; the model version is padded to
    sixteen characters before it is decoded. *)
Definition env_asset_pair (w : World) : string :=
  default "SOL/USDC" (environ w !! "DEFAULT_ASSET_PAIR").

Definition env_validity (w : World) : string :=
  default "25" (environ w !! "DEFAULT_VALIDITY_SLOTS").

Definition env_model_version (w : World) : string :=
  str_ljust 16 "0" (default "00000001" (environ w !! "MODEL_VERSION")).

(** Records of the function's logger. *)
Definition info (msg : string) (args : list LogArg) : LogRecord :=
  {| lr_logger := logger; lr_level := LVL_INFO; lr_message := msg;
     lr_args := args |}.

Definition warning (msg : string) : LogRecord :=
  {| lr_logger := logger; lr_level := LVL_WARNING; lr_message := msg;
     lr_args := [] |}.

(** The four records [main] starts with. *)
Definition banner : list LogRecord :=
  [info (string_repeat "=" 60) [];
   info "SSO-1 Switchboard Function" [];
   info "Specification: v1.2 (January 2026)" [];
   info (string_repeat "=" 60) []].


(** The bundle of a default run. *)
Definition sample_receipt : TeeReceipt :=
  {| enclave_signer := zero_bytes 32; attestation_hash := zero_bytes 32;
     mr_enclave := zero_bytes 32; timestamp_slot := 0; platform_version := 0 |}.

Definition sample_result : FunctionResult :=
  {| market_context := sample_context; signal_assessment := sample_assessment;
     tee_receipt := sample_receipt |}.

(** The placeholder context at slot 1000: the slot of [busy_context], none of
    its market data. *)
Definition idle_context : MarketContext :=
  {| slot := 1000; asset_pair := sample_asset_pair; price := 0; volume_24h := 0;
     volatility_1h := 0; liquidity_depth := 0; source_bitmap := 0;
     source_count := 0 |}.

(** A world whose environment sets the asset pair and the validity. *)
Definition world_btc : World :=
  {| environ := <["DEFAULT_ASSET_PAIR" := "BTC/USDC"]>
                  (<["DEFAULT_VALIDITY_SLOTS" := "25"]> ∅);
     records := [] |}.

(** A world whose asset pair is the single byte 0xff, which is not UTF-8:
    Python reads it as a lone surrogate. *)
Definition world_bad_pair : World :=
  {| environ := <["DEFAULT_ASSET_PAIR" := String "255"%char EmptyString]> ∅;
     records := [] |}.

(** ** The two copies of the enumerations *)

(** The integer values of the scoring module's members. *)
Definition Scoring_SignalType_value (t : Scoring.SignalType) : Z :=
  match t with
  | Scoring.MOMENTUM => 0 | Scoring.MEAN_REVERSION => 1
  | Scoring.VOLATILITY => 2 | Scoring.LIQUIDITY => 3 | Scoring.BREAKOUT => 4
  | Scoring.RISK => 5 | Scoring.CORRELATION => 6 | Scoring.ARBITRAGE => 7
  | Scoring.SENTIMENT => 8
  end.

Definition Scoring_Direction_value (d : Scoring.Direction) : Z :=
  match d with Scoring.NEUTRAL => 0 | Scoring.LONG => 1 | Scoring.SHORT => 2 end.

(** The member of [main.py]'s enumeration that has the same name. *)
Definition SignalType_of_scoring (t : Scoring.SignalType) : SignalType :=
  match t with
  | Scoring.MOMENTUM => MOMENTUM | Scoring.MEAN_REVERSION => MEAN_REVERSION
  | Scoring.VOLATILITY => VOLATILITY | Scoring.LIQUIDITY => LIQUIDITY
  | Scoring.BREAKOUT => BREAKOUT | Scoring.RISK => RISK
  | Scoring.CORRELATION => CORRELATION | Scoring.ARBITRAGE => ARBITRAGE
  | Scoring.SENTIMENT => SENTIMENT
  end.

Definition Direction_of_scoring (d : Scoring.Direction) : Direction :=
  match d with
  | Scoring.NEUTRAL => NEUTRAL | Scoring.LONG => LONG | Scoring.SHORT => SHORT
  end.

(** * Theorems *)

(** ** What each function returns

    None of the functions of the two modules reads the log, and only the
    orchestrator reads the environment: the value a call returns is a
    function of its arguments. *)

Lemma derive_market_context_returns (raw : RawData) (ap : bytes) (s : Z)
    (w : World) :
  outcome (derive_market_context raw ap s) w =
  Returned {| slot := s; asset_pair := ap; price := 0; volume_24h := 0;
              volatility_1h := 0; liquidity_depth := 0; source_bitmap := 0;
              source_count := 0 |}.
Proof. reflexivity. Qed.

Lemma compute_signal_assessment_returns (mc : MarketContext) (mv : bytes)
    (v : Z) (w : World) :
  outcome (compute_signal_assessment mc mv v) w =
  Returned {| signal_type := MOMENTUM; direction := NEUTRAL; magnitude := 50;
              confidence := 0; valid_from_slot := slot mc;
              valid_until_slot := slot mc + v; model_version := mv |}.
Proof. reflexivity. Qed.

Lemma capture_tee_attestation_returns (mc : MarketContext)
    (sa : SignalAssessment) (s : Z) (w : World) :
  outcome (capture_tee_attestation mc sa s) w =
  Returned {| enclave_signer := zero_bytes 32; attestation_hash := zero_bytes 32;
              mr_enclave := zero_bytes 32; timestamp_slot := s;
              platform_version := 0 |}.
Proof. reflexivity. Qed.

Lemma score_market_context_returns (s p vol vlt liq sc : Z)
    (config : option Scoring.ScoringConfig) (w : World) :
  outcome (Scoring.score_market_context s p vol vlt liq sc config) w =
  Returned {| Scoring.signal_type := Scoring.MOMENTUM;
              Scoring.direction := Scoring.NEUTRAL;
              Scoring.magnitude := 50;
              Scoring.confidence := 0 |}.
Proof. destruct config; reflexivity. Qed.

(** The functions only append to the log and leave the environment alone. *)
Lemma log_environ (name : string) (lvl : Level) (msg : string)
    (args : list LogArg) (w : World) :
  environ (world_after (log name lvl msg args) w) = environ w.
Proof. reflexivity. Qed.

(** A run of the orchestrator reads the world through the environment only. *)
Lemma execute_function_environ_only (py_int : string → option Z)
    (bytes_fromhex : string → option bytes) (w1 w2 : World) :
  environ w1 = environ w2 →
  outcome (execute_function py_int bytes_fromhex) w1 =
  outcome (execute_function py_int bytes_fromhex) w2.
Proof.
  intros Henv.
  unfold outcome, execute_function, parse_switchboard_request, Py_bind,
    getenv, log; cbn.
  rewrite ?Henv.
  destruct (py_int _) as [v|]; cbn; [|reflexivity].
  rewrite ?Henv.
  destruct (str_encode _) as [enc|]; cbn; [|reflexivity].
  rewrite ?Henv.
  destruct (bytes_fromhex _) as [hex|]; cbn; reflexivity.
Qed.




(** The digests of FIPS 180-4's one-block and two-block examples, and of the
    empty message. *)
Example sha256_abc :
  map Spec.Z_of_byte (Spec.sha256 (list_byte_of_string "abc")) =
  [186; 120; 22; 191; 143; 1; 207; 234; 65; 65; 64; 222; 93; 174; 34; 35;
   176; 3; 97; 163; 150; 23; 122; 156; 180; 16; 255; 97; 242; 0; 21; 173].
Proof. vm_compute. reflexivity. Qed.

Example sha256_empty :
  map Spec.Z_of_byte (Spec.sha256 []) =
  [227; 176; 196; 66; 152; 252; 28; 20; 154; 251; 244; 200; 153; 111; 185; 36;
   39; 174; 65; 228; 100; 155; 147; 76; 164; 149; 153; 27; 120; 82; 184; 85].
Proof. vm_compute. reflexivity. Qed.

Example sha256_two_blocks :
  map Spec.Z_of_byte
    (Spec.sha256
       (list_byte_of_string
          "abcdbcdecdefdefgefghfghighijhijkijkljklmklmnlmnomnopnopq")) =
  [36; 141; 106; 97; 210; 6; 56; 184; 229; 192; 38; 147; 12; 62; 96; 57;
   163; 60; 228; 89; 100; 255; 33; 103; 246; 236; 237; 212; 25; 219; 6; 193].
Proof. vm_compute. reflexivity. Qed.

(** ** Attestation binding *)

Section AnyHash.

(** Any hash function and any serialization of the payload. *)
Variable hash : bytes → bytes.
Variable serialize : MarketContext → SignalAssessment → bytes.

(** If every receipt stored the hash of its payload, the hash would take one
    value on all payloads: the stored field is the same for all of them. *)
Lemma attestation_binding_needs_constant_hash :
  (∀ mc sa s w r,
     outcome (capture_tee_attestation mc sa s) w = Returned r →
     attestation_hash r = hash (serialize mc sa)) →
  ∀ mc sa, hash (serialize mc sa) = zero_bytes 32.
Proof.
  intros Hbind mc sa.
  symmetry.
  exact (Hbind mc sa 0 world0 _ (capture_tee_attestation_returns mc sa 0 world0)).
Qed.

End AnyHash.

(** The serializations of the two sample contexts differ, and so do their
    digests. *)
Lemma sample_payloads_differ :
  Spec.canonical_serialization sample_context sample_assessment ≠
  Spec.canonical_serialization busy_context sample_assessment ∧
  Spec.spec_attestation_hash sample_context sample_assessment ≠
  Spec.spec_attestation_hash busy_context sample_assessment.
Proof. split; intros H; vm_compute in H; discriminate H. Qed.

(** No hash that tells the two sample payloads apart is the one stored in
    every receipt. *)
Lemma no_separating_hash_is_stored :
  ¬ ∃ hash : bytes → bytes,
      hash (Spec.canonical_serialization sample_context sample_assessment) ≠
      hash (Spec.canonical_serialization busy_context sample_assessment) ∧
      ∀ mc sa s w r,
        outcome (capture_tee_attestation mc sa s) w = Returned r →
        attestation_hash r = hash (Spec.canonical_serialization mc sa).
Proof.
  intros (hash & Hsep & Hbind). apply Hsep.
  rewrite !(attestation_binding_needs_constant_hash hash
              Spec.canonical_serialization Hbind).
  reflexivity.
Qed.

(** C1, counterexample: for the context and the assessment of a
    default run, [capture_tee_attestation] returns a receipt whose
    [attestation_hash] is thirty-two zero bytes, while the SHA-256 digest of
    the canonical serialization of the pair is da9edc1b...6dcf14; the stored
    field is not the recomputed hash. The same zero field is returned for a
    different context, whose digest is another one. *)
Theorem attestation_hash_is_not_the_payload_hash :
  ∃ r r' : TeeReceipt,
    outcome (capture_tee_attestation sample_context sample_assessment 0) world0
      = Returned r ∧
    outcome (capture_tee_attestation busy_context sample_assessment 1000) world0
      = Returned r' ∧
    attestation_hash r = zero_bytes 32 ∧
    attestation_hash r' = zero_bytes 32 ∧
    map Spec.Z_of_byte (Spec.spec_attestation_hash sample_context sample_assessment) =
      [218; 158; 220; 27; 156; 60; 63; 235; 97; 143; 174; 238; 69; 65; 104; 119;
       219; 100; 55; 126; 101; 100; 24; 252; 146; 42; 229; 164; 126; 109; 207; 20] ∧
    attestation_hash r ≠
      Spec.spec_attestation_hash sample_context sample_assessment ∧
    attestation_hash r' ≠
      Spec.spec_attestation_hash busy_context sample_assessment.
Proof.
  eexists _, _.
  split; [apply capture_tee_attestation_returns|].
  split; [apply capture_tee_attestation_returns|].
  cbn [attestation_hash].
  split; [reflexivity|]. split; [reflexivity|].
  split; [vm_compute; reflexivity|].
  split; intros H; vm_compute in H; discriminate H.
Qed.

(** C1, as the source has it: for every MarketContext and SignalAssessment
    pair, [capture_tee_attestation] returns a receipt whose
    [attestation_hash] is thirty-two zero bytes, the same field for every
    pair, slot and world. It is not computed from the pair: for any hash and
    any serialization, the hash recomputed from the pair equals the stored
    value exactly when that hash is thirty-two zero bytes. *)
Theorem attestation_hash_is_the_zero_placeholder (mc : MarketContext)
    (sa : SignalAssessment) (s : Z) (w : World) :
  ∃ r : TeeReceipt,
    outcome (capture_tee_attestation mc sa s) w = Returned r ∧
    attestation_hash r = zero_bytes 32 ∧
    length (attestation_hash r) = 32%nat ∧
    (∀ mc' sa' s' w' r',
       outcome (capture_tee_attestation mc' sa' s') w' = Returned r' →
       attestation_hash r' = attestation_hash r) ∧
    ∀ (hash : bytes → bytes)
      (serialize : MarketContext → SignalAssessment → bytes),
      attestation_hash r = hash (serialize mc sa) ↔
      hash (serialize mc sa) = zero_bytes 32.
Proof.
  eexists. split; [apply capture_tee_attestation_returns|].
  cbn [attestation_hash].
  split; [reflexivity|]. split; [reflexivity|]. split.
  - intros mc' sa' s' w' r' H.
    rewrite capture_tee_attestation_returns in H.
    injection H as <-. reflexivity.
  - intros hash serialize. split; intros H; symmetry; exact H.
Qed.

(** ** The validity window *)

(** C2, counterexample: a request of 500 slots under the default
    configuration, whose [max_validity_slots] is 100, yields a window of 500
    slots; [valid_until_slot] is not the current slot plus the minimum of the
    request and the maximum, and the window exceeds the maximum. *)
Lemma validity_request_500_is_not_clamped :
  ∃ sa : SignalAssessment,
    outcome (compute_signal_assessment sample_context sample_model_version 500)
      world0 = Returned sa ∧
    Scoring.max_validity_slots Scoring.ScoringConfig_default = 100 ∧
    valid_until_slot sa - valid_from_slot sa = 500 ∧
    valid_until_slot sa ≠
      Spec.spec_valid_until_slot (slot sample_context) 500
        (Scoring.max_validity_slots Scoring.ScoringConfig_default) ∧
    ¬ (valid_until_slot sa - valid_from_slot sa ≤
       Scoring.max_validity_slots Scoring.ScoringConfig_default).
Proof.
  eexists. split; [apply compute_signal_assessment_returns|].
  cbn. unfold Spec.spec_valid_until_slot. repeat split; lia.
Qed.

(** C2, as the source has it: for every requested length greater than zero
    the assessment is returned with [valid_from_slot] equal to the context's
    slot and [valid_until_slot] equal to that slot plus the requested length,
    unclamped. So [valid_from_slot ≤ valid_until_slot], the window length is
    the requested length, and it agrees with the specification's clamped end,
    and stays within [max_validity_slots], exactly when the request does not
    exceed [max_validity_slots]. *)
Theorem validity_window_follows_request (mc : MarketContext) (mv : bytes)
    (v : Z) (cfg : Scoring.ScoringConfig) (w : World) :
  0 < v →
  ∃ sa : SignalAssessment,
    outcome (compute_signal_assessment mc mv v) w = Returned sa ∧
    valid_from_slot sa = slot mc ∧
    valid_until_slot sa = slot mc + v ∧
    valid_from_slot sa ≤ valid_until_slot sa ∧
    valid_until_slot sa - valid_from_slot sa = v ∧
    (valid_until_slot sa =
       Spec.spec_valid_until_slot (slot mc) v (Scoring.max_validity_slots cfg)
     ↔ v ≤ Scoring.max_validity_slots cfg) ∧
    (valid_until_slot sa - valid_from_slot sa ≤ Scoring.max_validity_slots cfg
     ↔ v ≤ Scoring.max_validity_slots cfg).
Proof.
  intros Hv. eexists. split; [apply compute_signal_assessment_returns|].
  cbn. unfold Spec.spec_valid_until_slot. repeat split; lia.
Qed.

(** The statement at a request of 25 slots from slot 1000. *)
Lemma validity_window_follows_request_witness :
  0 < 25 ∧
  ∃ sa : SignalAssessment,
    outcome (compute_signal_assessment busy_context sample_model_version 25)
      world0 = Returned sa ∧
    valid_from_slot sa = slot busy_context ∧
    valid_until_slot sa = slot busy_context + 25 ∧
    valid_from_slot sa ≤ valid_until_slot sa ∧
    valid_until_slot sa - valid_from_slot sa = 25 ∧
    (valid_until_slot sa =
       Spec.spec_valid_until_slot (slot busy_context) 25
         (Scoring.max_validity_slots Scoring.ScoringConfig_default)
     ↔ 25 ≤ Scoring.max_validity_slots Scoring.ScoringConfig_default) ∧
    (valid_until_slot sa - valid_from_slot sa ≤
       Scoring.max_validity_slots Scoring.ScoringConfig_default
     ↔ 25 ≤ Scoring.max_validity_slots Scoring.ScoringConfig_default).
Proof.
  split; [reflexivity|].
  apply (validity_window_follows_request busy_context sample_model_version 25
           Scoring.ScoringConfig_default world0).
  reflexivity.
Defined.

(** C6, counterexample: with a requested length of 0, and of -5, the scoring
    operation returns a SignalAssessment (whose window ends at, or before,
    its start) instead of failing with InvalidValidityWindow. *)
Lemma nonpositive_validity_is_accepted :
  outcome (compute_signal_assessment sample_context sample_model_version 0)
    world0 =
    Returned {| signal_type := MOMENTUM; direction := NEUTRAL; magnitude := 50;
                confidence := 0; valid_from_slot := 0; valid_until_slot := 0;
                model_version := sample_model_version |} ∧
  outcome (compute_signal_assessment sample_context sample_model_version (-5))
    world0 =
    Returned {| signal_type := MOMENTUM; direction := NEUTRAL; magnitude := 50;
                confidence := 0; valid_from_slot := 0; valid_until_slot := -5;
                model_version := sample_model_version |} ∧
  outcome (compute_signal_assessment sample_context sample_model_version 0)
    world0 ≠ Raised InvalidValidityWindow ∧
  outcome (compute_signal_assessment sample_context sample_model_version (-5))
    world0 ≠ Raised InvalidValidityWindow.
Proof. repeat split; discriminate. Qed.

(** C6, as the source has it: for every requested length less than or equal
    to zero the scoring operation does not fail; it returns a SignalAssessment
    that starts at the context's slot and ends at that slot plus the
    requested length, that is, not after its start. *)
Theorem nonpositive_validity_returns_assessment (mc : MarketContext)
    (mv : bytes) (v : Z) (w : World) :
  v ≤ 0 →
  ∃ sa : SignalAssessment,
    outcome (compute_signal_assessment mc mv v) w = Returned sa ∧
    outcome (compute_signal_assessment mc mv v) w ≠ Raised InvalidValidityWindow ∧
    valid_from_slot sa = slot mc ∧
    valid_until_slot sa = slot mc + v ∧
    valid_until_slot sa ≤ valid_from_slot sa.
Proof.
  intros Hv. eexists. split; [apply compute_signal_assessment_returns|].
  rewrite compute_signal_assessment_returns. cbn.
  repeat split; [discriminate | lia].
Qed.

(** The statement at a request of -5 slots from slot 1000. *)
Lemma nonpositive_validity_returns_assessment_witness :
  -5 ≤ 0 ∧
  ∃ sa : SignalAssessment,
    outcome (compute_signal_assessment busy_context sample_model_version (-5))
      world0 = Returned sa ∧
    outcome (compute_signal_assessment busy_context sample_model_version (-5))
      world0 ≠ Raised InvalidValidityWindow ∧
    valid_from_slot sa = slot busy_context ∧
    valid_until_slot sa = slot busy_context + -5 ∧
    valid_until_slot sa ≤ valid_from_slot sa.
Proof.
  split; [discriminate|].
  apply (nonpositive_validity_returns_assessment busy_context
           sample_model_version (-5) world0).
  discriminate.
Defined.

(** ** The scoring engine *)

(** C3: for every context and every configuration, when the source count is
    below [min_sources_for_confidence] or the liquidity depth is below
    [min_liquidity_depth], [compute_confidence] returns exactly 0, whatever
    the volatility, and so does the [confidence] of [score_market_context],
    whatever the slot, price and volume, with the configuration supplied or
    with the default one. *)
Theorem confidence_is_zero_on_thin_context (source_count liquidity_depth
    volatility : Z) (config : option Scoring.ScoringConfig) (w : World) :
  let cfg := match config with
             | None => Scoring.ScoringConfig_default
             | Some c => c
             end in
  source_count < Scoring.min_sources_for_confidence cfg ∨
  liquidity_depth < Scoring.min_liquidity_depth cfg →
  outcome (Scoring.compute_confidence source_count liquidity_depth volatility cfg) w
    = Returned 0 ∧
  ∀ slot price volume_24h : Z,
  ∃ r : Scoring.ScoringResult,
    outcome (Scoring.score_market_context slot price volume_24h volatility
               liquidity_depth source_count config) w = Returned r ∧
    Scoring.confidence r = 0.
Proof.
  intros cfg _. split; [reflexivity|].
  intros s p vol. eexists.
  split; [apply score_market_context_returns | reflexivity].
Qed.

(** The statement at two sources, under the default configuration. *)
Lemma confidence_is_zero_on_thin_context_witness :
  (2 < Scoring.min_sources_for_confidence Scoring.ScoringConfig_default ∨
   500000 < Scoring.min_liquidity_depth Scoring.ScoringConfig_default) ∧
  outcome (Scoring.compute_confidence 2 500000 1500 Scoring.ScoringConfig_default)
    world0 = Returned 0 ∧
  ∀ slot price volume_24h : Z,
  ∃ r : Scoring.ScoringResult,
    outcome (Scoring.score_market_context slot price volume_24h 1500 500000 2
               None) world0 = Returned r ∧
    Scoring.confidence r = 0.
Proof.
  split; [left; reflexivity|].
  apply (confidence_is_zero_on_thin_context 2 500000 1500 None world0).
  left; reflexivity.
Defined.

(** C9: for every input, the magnitude and the confidence the scoring engine
    produces lie in [0,100] and the direction is one of NEUTRAL, LONG and
    SHORT: for the three sub-computations taken alone, for
    [score_market_context], and for the assessment of
    [compute_signal_assessment]. *)
Theorem scoring_outputs_in_range (slot price volume volatility liquidity_depth
    source_count : Z) (d : Scoring.Direction) (t : Scoring.SignalType)
    (cfg : Scoring.ScoringConfig) (config : option Scoring.ScoringConfig)
    (mc : MarketContext) (mv : bytes) (v : Z) (w : World) :
  (∃ m : Z,
     outcome (Scoring.compute_magnitude price volume volatility d cfg) w
       = Returned m ∧ 0 ≤ m ≤ 100) ∧
  (∃ c : Z,
     outcome (Scoring.compute_confidence source_count liquidity_depth volatility cfg) w
       = Returned c ∧ 0 ≤ c ≤ 100) ∧
  (∃ dir : Scoring.Direction,
     outcome (Scoring.compute_direction price volume volatility t) w
       = Returned dir ∧
     (dir = Scoring.NEUTRAL ∨ dir = Scoring.LONG ∨ dir = Scoring.SHORT)) ∧
  (∃ r : Scoring.ScoringResult,
     outcome (Scoring.score_market_context slot price volume volatility
                liquidity_depth source_count config) w = Returned r ∧
     0 ≤ Scoring.magnitude r ≤ 100 ∧ 0 ≤ Scoring.confidence r ≤ 100 ∧
     (Scoring.direction r = Scoring.NEUTRAL ∨ Scoring.direction r = Scoring.LONG ∨
      Scoring.direction r = Scoring.SHORT)) ∧
  (∃ sa : SignalAssessment,
     outcome (compute_signal_assessment mc mv v) w = Returned sa ∧
     0 ≤ magnitude sa ≤ 100 ∧ 0 ≤ confidence sa ≤ 100 ∧
     (direction sa = NEUTRAL ∨ direction sa = LONG ∨ direction sa = SHORT)).
Proof.
  split; [eexists; split; [reflexivity | lia]|].
  split; [eexists; split; [reflexivity | lia]|].
  split; [eexists; split; [reflexivity | left; reflexivity]|].
  split.
  - eexists. split; [apply score_market_context_returns|].
    cbn. repeat split; try lia. left; reflexivity.
  - eexists. split; [apply compute_signal_assessment_returns|].
    cbn. repeat split; try lia. left; reflexivity.
Qed.

(** C10: for every input tuple and every configuration, the default one
    ([None]) included, [score_market_context] returns exactly
    [ScoringResult(signal_type=MOMENTUM, direction=NEUTRAL, magnitude=50,
    confidence=0)]: the same value for any two inputs. *)
Theorem score_market_context_is_constant (slot price volume_24h volatility_1h
    liquidity_depth source_count : Z) (config : option Scoring.ScoringConfig)
    (w : World) :
  outcome (Scoring.score_market_context slot price volume_24h volatility_1h
             liquidity_depth source_count config) w =
  Returned {| Scoring.signal_type := Scoring.MOMENTUM;
              Scoring.direction := Scoring.NEUTRAL;
              Scoring.magnitude := 50;
              Scoring.confidence := 0 |}.
Proof. destruct config; reflexivity. Qed.

(** ** The Context Builder *)

(** C4, counterexample: with two sources only, fewer than the configured
    minimum of three, [derive_market_context] returns a MarketContext and
    does not fail with InsufficientSources; with three observations that are
    all a thousand slots old, none of them fresh, it returns one as well and
    does not fail with StaleData. *)
Lemma thin_or_stale_input_still_yields_a_context :
  (Z.of_nat (length (Spec.survivors sample_filter 0 raw_two_sources)) = 2 ∧
   2 < Spec.min_sources sample_filter ∧
   outcome (derive_market_context raw_two_sources sample_asset_pair 0) world0
     = Returned sample_context ∧
   outcome (derive_market_context raw_two_sources sample_asset_pair 0) world0
     ≠ Raised InsufficientSources) ∧
  (length (Spec.observations raw_three_old) = 3%nat ∧
   Spec.fresh_observations sample_filter 1000 raw_three_old = [] ∧
   outcome (derive_market_context raw_three_old sample_asset_pair 1000) world0
     = Returned {| slot := 1000; asset_pair := sample_asset_pair; price := 0;
                   volume_24h := 0; volatility_1h := 0; liquidity_depth := 0;
                   source_bitmap := 0; source_count := 0 |} ∧
   outcome (derive_market_context raw_three_old sample_asset_pair 1000) world0
     ≠ Raised StaleData).
Proof.
  split.
  - split; [vm_compute; reflexivity|].
    split; [reflexivity|].
    split; [reflexivity | discriminate].
  - split; [vm_compute; reflexivity|].
    split; [vm_compute; reflexivity|].
    split; [reflexivity | discriminate].
Qed.

(** C4, as the source has it: for every input collection of observations,
    every asset pair and every slot, [derive_market_context] returns the
    MarketContext made of the slot, the asset pair and zero in every other
    field; it fails neither with InsufficientSources nor with StaleData,
    however few observations survive the filters of the specification, under
    any thresholds. *)
Theorem derive_market_context_never_fails (raw : RawData) (ap : bytes)
    (s : Z) (cfg : Spec.FilterConfig) (w : World) :
  outcome (derive_market_context raw ap s) w =
    Returned {| slot := s; asset_pair := ap; price := 0; volume_24h := 0;
                volatility_1h := 0; liquidity_depth := 0; source_bitmap := 0;
                source_count := 0 |} ∧
  outcome (derive_market_context raw ap s) w ≠ Raised InsufficientSources ∧
  outcome (derive_market_context raw ap s) w ≠ Raised StaleData ∧
  (Z.of_nat (length (Spec.survivors cfg s raw)) < Spec.min_sources cfg →
   ∃ mc, outcome (derive_market_context raw ap s) w = Returned mc) ∧
  (Spec.fresh_observations cfg s raw = [] →
   ∃ mc, outcome (derive_market_context raw ap s) w = Returned mc).
Proof.
  split; [reflexivity|].
  split; [discriminate|].
  split; [discriminate|].
  split; intros _; eexists; reflexivity.
Qed.

(** The statement at the raw data of two sources, a minimum of three. *)
Lemma derive_market_context_never_fails_witness :
  Z.of_nat (length (Spec.survivors sample_filter 0 raw_two_sources))
    < Spec.min_sources sample_filter ∧
  ∃ mc, outcome (derive_market_context raw_two_sources sample_asset_pair 0)
          world0 = Returned mc.
Proof.
  split; [vm_compute; reflexivity|].
  apply (proj1 (proj2 (proj2 (proj2
           (derive_market_context_never_fails raw_two_sources sample_asset_pair
              0 sample_filter world0))))).
  vm_compute; reflexivity.
Defined.

(** C8, counterexample: the single source 3, observed at the current slot,
    survives the freshness filter and the outlier rejection, so its bit (the
    bitmap 8) is due; the MarketContext returned has bit 3 clear, a bitmap of
    0 and a source count of 0, not 1. *)
Lemma surviving_source_has_no_bit :
  map Spec.obs_source_id (Spec.survivors sample_filter 0 raw_one_source) = [3] ∧
  Spec.spec_source_bitmap (Spec.survivors sample_filter 0 raw_one_source) = 8 ∧
  ∃ mc : MarketContext,
    outcome (derive_market_context raw_one_source sample_asset_pair 0) world0
      = Returned mc ∧
    Z.testbit (source_bitmap mc) 3 = false ∧
    source_bitmap mc ≠
      Spec.spec_source_bitmap (Spec.survivors sample_filter 0 raw_one_source) ∧
    source_count mc ≠
      Z.of_nat (length (Spec.survivors sample_filter 0 raw_one_source)).
Proof.
  split; [vm_compute; reflexivity|].
  split; [vm_compute; reflexivity|].
  eexists. split; [apply derive_market_context_returns|].
  cbn [source_bitmap source_count].
  split; [reflexivity|].
  split; intros H; vm_compute in H; discriminate H.
Qed.

(** C8, as the source has it: every MarketContext [derive_market_context]
    produces satisfies [source_count = popcount(source_bitmap)]; both are
    zero, and no bit of the bitmap is set, whichever sources the input
    holds. *)
Theorem source_count_is_popcount_of_bitmap (raw : RawData) (ap : bytes)
    (s : Z) (w : World) :
  ∃ mc : MarketContext,
    outcome (derive_market_context raw ap s) w = Returned mc ∧
    source_count mc = Spec.popcount (source_bitmap mc) ∧
    source_bitmap mc = 0 ∧
    source_count mc = 0 ∧
    ∀ i : Z, Z.testbit (source_bitmap mc) i = false.
Proof.
  eexists. split; [apply derive_market_context_returns|].
  cbn [source_bitmap source_count].
  repeat split. intros i. apply Z.testbit_0_l.
Qed.

(** ** The Attestation Binder *)




(** ** Determinism *)

(** C5: the scoring operation is deterministic. Two calls of
    [score_market_context], or of [compute_signal_assessment], on the same
    arguments return the same value from any two worlds, whatever was logged
    before and whatever the environment holds. Likewise the two stages run
    one after the other on the same raw observations, asset pair, slot, model
    version and requested validity return the same MarketContext and
    SignalAssessment, with the same canonical serialization; and two runs of
    the orchestrator from worlds with the same environment end with the same
    outcome. *)
Theorem scoring_and_pipeline_are_deterministic
    (slot price volume_24h volatility_1h liquidity_depth source_count : Z)
    (config : option Scoring.ScoringConfig)
    (mc : MarketContext) (mv : bytes) (v : Z)
    (raw : RawData) (ap : bytes) (s : Z)
    (py_int : string → option Z) (bytes_fromhex : string → option bytes)
    (w1 w2 : World) :
  (∃ r : Scoring.ScoringResult,
     outcome (Scoring.score_market_context slot price volume_24h volatility_1h
                liquidity_depth source_count config) w1 = Returned r ∧
     outcome (Scoring.score_market_context slot price volume_24h volatility_1h
                liquidity_depth source_count config) w2 = Returned r) ∧
  (∃ sa : SignalAssessment,
     outcome (compute_signal_assessment mc mv v) w1 = Returned sa ∧
     outcome (compute_signal_assessment mc mv v) w2 = Returned sa) ∧
  (let stages :=
     (m <- derive_market_context raw ap s ;;
      a <- compute_signal_assessment m mv v ;;
      Py_return (m, a)) in
   (∃ (m : MarketContext) (a : SignalAssessment),
      outcome stages w1 = Returned (m, a) ∧
      outcome stages w2 = Returned (m, a)) ∧
   ∀ m1 a1 m2 a2,
     outcome stages w1 = Returned (m1, a1) →
     outcome stages w2 = Returned (m2, a2) →
     Spec.canonical_serialization m1 a1 = Spec.canonical_serialization m2 a2) ∧
  (environ w1 = environ w2 →
   outcome (execute_function py_int bytes_fromhex) w1 =
   outcome (execute_function py_int bytes_fromhex) w2).
Proof.
  split.
  { eexists. split; apply score_market_context_returns. }
  split.
  { eexists. split; apply compute_signal_assessment_returns. }
  split.
  { cbv zeta. split.
    - eexists _, _. split; reflexivity.
    - intros m1 a1 m2 a2 H1 H2.
      cbv [outcome Py_bind derive_market_context compute_signal_assessment
           log Py_return fst] in H1, H2.
      congruence. }
  apply execute_function_environ_only.
Qed.

(** The statement at two worlds that differ in their logs only. *)
Lemma scoring_and_pipeline_are_deterministic_witness :
  environ world0 = environ world1 ∧
  records world0 ≠ records world1 ∧
  outcome (execute_function sample_int sample_fromhex) world0 =
  outcome (execute_function sample_int sample_fromhex) world1.
Proof.
  split; [reflexivity|].
  split; [discriminate|].
  apply (proj2 (proj2 (proj2
           (scoring_and_pipeline_are_deterministic 0 0 0 0 0 0 None
              sample_context sample_model_version 25 raw_two_sources
              sample_asset_pair 0 sample_int sample_fromhex world0 world1)))).
  reflexivity.
Defined.

(** ** A default run, end to end *)

(** With no environment variable set, [main] logs nineteen records, hands
    the bundle of placeholders to [submit_result] and exits with 0. *)
Example main_default_run :
  outcome (main sample_int sample_fromhex) world0 = Returned 0 ∧
  length (records (world_after (main sample_int sample_fromhex) world0)) = 19%nat.
Proof. split; vm_compute; reflexivity. Qed.

(** When [int] rejects the validity string, the [ValueError] is caught by
    [main], which exits with 1. *)
Example main_rejected_request :
  outcome (main (λ _, None) sample_fromhex) world0 = Returned 1.
Proof. vm_compute; reflexivity. Qed.

(** * Further properties of the orchestrator and the scoring module *)

(** ** Exit code and log of [main] *)

Ltac run_orchestrator :=
  unfold outcome, world_after, main, try_except, execute_function,
    submit_result, parse_switchboard_request, fetch_market_data,
    derive_market_context, compute_signal_assessment, capture_tee_attestation,
    get_current_slot, Py_bind, Py_return, Py_raise, getenv, log,
    env_validity, env_model_version, env_asset_pair;
  cbn.


(** With an asset pair that cannot be encoded, both other builtins
    accepting, [main] exits with 1. *)
Example main_bad_asset_pair :
  str_encode (env_asset_pair world_bad_pair) = None ∧
  sample_int (env_validity world_bad_pair) = Some 25 ∧
  sample_fromhex (env_model_version world_bad_pair) = Some sample_model_version ∧
  outcome (execute_function sample_int sample_fromhex) world_bad_pair
    = Raised ValueError ∧
  outcome (main sample_int sample_fromhex) world_bad_pair = Returned 1.
Proof. repeat split; vm_compute; reflexivity. Qed.

(** Lengths and encodings of four strings: ASCII; the two bytes of U+00E9
    before "/USDC"; the lone byte 0xff; the three bytes ED A0 80, which would
    spell a surrogate and are three characters to Python. *)
Example str_len_and_encode :
  (str_len "SOL/USDC" = 8%nat ∧
   str_encode "SOL/USDC" = Some (list_byte_of_string "SOL/USDC")) ∧
  (str_len (String "195"%char (String "169"%char "/USDC")) = 6%nat ∧
   is_Some (str_encode (String "195"%char (String "169"%char "/USDC")))) ∧
  (str_len (String "255"%char EmptyString) = 1%nat ∧
   str_encode (String "255"%char EmptyString) = None) ∧
  (str_len (String "237"%char (String "160"%char (String "128"%char EmptyString)))
     = 3%nat ∧
   str_encode (String "237"%char (String "160"%char (String "128"%char EmptyString)))
     = None).
Proof.
  repeat split; try (vm_compute; reflexivity).
  eexists. vm_compute. reflexivity.
Qed.



(** X3: when [int] rejects the validity string, [execute_function] raises
    ValueError right after the request's warning: no slot is read, no market
    data fetched and no stage run. [main] then logs the error, hands nothing
    to [submit_result] and exits with 1. *)
Theorem rejected_validity_aborts_before_the_stages (py_int : string → option Z)
    (bytes_fromhex : string → option bytes) (w : World) :
  py_int (env_validity w) = None →
  outcome (execute_function py_int bytes_fromhex) w = Raised ValueError ∧
  records (world_after (execute_function py_int bytes_fromhex) w) =
    records w ++
    [info "SSO-1 Function execution starting" [];
     warning "parse_switchboard_request: NOT IMPLEMENTED"] ∧
  outcome (main py_int bytes_fromhex) w = Returned 1 ∧
  records (world_after (main py_int bytes_fromhex) w) =
    records w ++ banner ++
    [info "SSO-1 Function execution starting" [];
     warning "parse_switchboard_request: NOT IMPLEMENTED";
     {| lr_logger := logger; lr_level := LVL_ERROR;
        lr_message := "Function execution failed: {e}";
        lr_args := [ArgException ValueError] |}].
Proof.
  run_orchestrator. intros ->; cbn.
  split; [reflexivity|].
  split; [rewrite <- !app_assoc; reflexivity|].
  split; [reflexivity|].
  rewrite <- !app_assoc. reflexivity.
Qed.

(** The statement at a builtin that rejects every string. *)
Lemma rejected_validity_aborts_before_the_stages_witness :
  (λ _ : string, @None Z) (env_validity world0) = None ∧
  outcome (main (λ _, None) sample_fromhex) world0 = Returned 1.
Proof.
  split; [reflexivity|].
  apply (rejected_validity_aborts_before_the_stages (λ _, None) sample_fromhex
           world0).
  reflexivity.
Defined.

(** X4: when [int] accepts the validity string and [bytes.fromhex] rejects
    the model version, [execute_function] raises ValueError after the
    request was parsed and logged, before the slot is read: again no stage
    runs, nothing is submitted and [main] exits with 1. *)
Theorem rejected_model_version_aborts_before_the_stages
    (py_int : string → option Z) (bytes_fromhex : string → option bytes)
    (w : World) (v : Z) :
  py_int (env_validity w) = Some v →
  bytes_fromhex (env_model_version w) = None →
  outcome (execute_function py_int bytes_fromhex) w = Raised ValueError ∧
  records (world_after (execute_function py_int bytes_fromhex) w) =
    records w ++
    [info "SSO-1 Function execution starting" [];
     warning "parse_switchboard_request: NOT IMPLEMENTED";
     info "Processing signal for {asset_pair_str}" [ArgStr (env_asset_pair w)]] ∧
  outcome (main py_int bytes_fromhex) w = Returned 1 ∧
  records (world_after (main py_int bytes_fromhex) w) =
    records w ++ banner ++
    [info "SSO-1 Function execution starting" [];
     warning "parse_switchboard_request: NOT IMPLEMENTED";
     info "Processing signal for {asset_pair_str}" [ArgStr (env_asset_pair w)];
     {| lr_logger := logger; lr_level := LVL_ERROR;
        lr_message := "Function execution failed: {e}";
        lr_args := [ArgException ValueError] |}].
Proof.
  run_orchestrator. intros ->; cbn.
  destruct (str_encode _) as [enc|]; cbn; [intros ->; cbn | intros _];
    (split; [reflexivity|];
     split; [rewrite <- !app_assoc; reflexivity|];
     split; [reflexivity|];
     rewrite <- !app_assoc; reflexivity).
Qed.

(** The statement at a decoder that rejects every string. *)
Lemma rejected_model_version_aborts_before_the_stages_witness :
  sample_int (env_validity world0) = Some 25 ∧
  (λ _ : string, @None bytes) (env_model_version world0) = None ∧
  outcome (main sample_int (λ _, None)) world0 = Returned 1.
Proof.
  split; [reflexivity|]. split; [reflexivity|].
  apply (rejected_model_version_aborts_before_the_stages sample_int (λ _, None)
           world0 25); reflexivity.
Defined.

(** ** The bundle [execute_function] returns *)


Lemma string_repeat_length (c : ascii) (n : nat) :
  String.length (string_repeat c n) = n.
Proof. induction n as [|n IH]; cbn; [reflexivity | now rewrite IH]. Qed.

Lemma string_append_length (s t : string) :
  String.length (String.append s t) = (String.length s + String.length t)%nat.
Proof.
  induction s as [|c s IH]; [reflexivity|].
  change (S (String.length (String.append s t)) =
          S (String.length s + String.length t)).
  now rewrite IH.
Qed.

(** *** Characters and bytes of a padded string *)

Lemma str_bytes_length (s : string) : length (str_bytes s) = String.length s.
Proof.
  unfold str_bytes. rewrite length_map.
  induction s as [|c s IH]; [reflexivity|].
  change (S (length (list_byte_of_string s)) = S (String.length s)).
  now rewrite IH.
Qed.

Lemma str_bytes_append (s t : string) :
  str_bytes (String.append s t) = str_bytes s ++ str_bytes t.
Proof.
  unfold str_bytes. rewrite <- map_app. f_equal.
  induction s as [|c s IH]; [reflexivity|].
  change (byte_of_ascii c :: list_byte_of_string (String.append s t) =
          byte_of_ascii c :: (list_byte_of_string s ++ list_byte_of_string t)).
  now rewrite IH.
Qed.

Lemma str_bytes_zeros (k : nat) : str_bytes (string_repeat "0" k) = repeat 48 k.
Proof.
  induction k as [|k IH]; [reflexivity|].
  change (48 :: str_bytes (string_repeat "0" k) = 48 :: repeat 48 k).
  now rewrite IH.
Qed.

(** A well-formed sequence lies within the bytes it is read from. *)
Lemma utf8_sequence_length_le (l : list Z) :
  (utf8_sequence_length l ≤ length l)%nat.
Proof.
  destruct l as [|b0 [|b1 [|b2 [|b3 r]]]]; cbn;
    repeat match goal with
           | |- context [if ?c then _ else _] => destruct c
           end; cbn; lia.
Qed.

(** The character 0 after the bytes neither completes nor starts anything
    but itself. *)
Lemma utf8_sequence_length_zeros (l : list Z) (k : nat) :
  l ≠ [] →
  utf8_sequence_length (l ++ repeat 48 k) = utf8_sequence_length l.
Proof.
  intros Hl.
  destruct l as [|b0 [|b1 [|b2 [|b3 r]]]]; [contradiction| | | |];
    destruct k as [|[|[|k]]]; cbn; rewrite ?andb_false_r; cbn;
    repeat match goal with
           | |- context [if ?c then _ else _] => destruct c; cbn
           end; reflexivity.
Qed.

Lemma utf8_scan_zeros (fuel k : nat) :
  (k ≤ fuel)%nat → (utf8_scan fuel (repeat 48 k)).2 = k.
Proof.
  revert k. induction fuel as [|fuel IH]; intros k Hk.
  - replace k with 0%nat by lia. reflexivity.
  - destruct k as [|k]; [reflexivity|].
    cbn. rewrite drop_0, IH by lia. reflexivity.
Qed.

Lemma utf8_scan_padded (fuel k : nat) (l : list Z) :
  (length l ≤ fuel)%nat →
  (utf8_scan (fuel + k) (l ++ repeat 48 k)).2 = ((utf8_scan fuel l).2 + k)%nat.
Proof.
  revert l. induction fuel as [|fuel IH]; intros l Hl.
  - destruct l; [|cbn in Hl; lia]. cbn [app Nat.add].
    rewrite utf8_scan_zeros by lia. destruct k; reflexivity.
  - destruct l as [|b0 r].
    + cbn [app]. rewrite utf8_scan_zeros by lia. reflexivity.
    + change (S fuel + k)%nat with (S (fuel + k)).
      change ((b0 :: r) ++ repeat 48 k) with (b0 :: (r ++ repeat 48 k)).
      cbn [utf8_scan].
      change (b0 :: (r ++ repeat 48 k)) with ((b0 :: r) ++ repeat 48 k).
      rewrite utf8_sequence_length_zeros by discriminate.
      pose proof (utf8_sequence_length_le (b0 :: r)) as Hle.
      destruct (utf8_sequence_length (b0 :: r)) as [|n] eqn:Hn.
      * cbn [drop app snd]. rewrite !drop_0.
        rewrite IH by (cbn in Hl; lia). reflexivity.
      * rewrite drop_app_le by exact Hle.
        cbn [fst snd]. rewrite IH; [reflexivity|].
        rewrite length_drop. cbn in Hl, Hle |- *. lia.
Qed.

(** [len(s) <= len(s.encode())] where the latter exists: a character takes
    at least one byte. *)
Lemma utf8_scan_count_le (fuel : nat) (l : list Z) :
  ((utf8_scan fuel l).2 ≤ length l)%nat.
Proof.
  revert l. induction fuel as [|fuel IH]; intros l; [cbn; lia|].
  destruct l as [|b0 r]; [cbn; lia|].
  cbn [utf8_scan].
  pose proof (utf8_sequence_length_le (b0 :: r)) as Hle.
  destruct (utf8_sequence_length (b0 :: r)) as [|n].
  - cbn [snd drop]. rewrite drop_0. specialize (IH r). cbn [length]. lia.
  - cbn [snd]. specialize (IH (drop (S n) (b0 :: r))).
    rewrite length_drop in IH. cbn [length] in *. lia.
Qed.

Lemma str_len_le (s : string) : (str_len s ≤ String.length s)%nat.
Proof.
  unfold str_len. rewrite <- (str_bytes_length s).
  apply utf8_scan_count_le.
Qed.

(** [len(s.ljust(width, "0")) = max(width, len(s))], in characters. *)
Lemma str_ljust_len (width : nat) (s : string) :
  str_len (str_ljust width "0" s) = Nat.max width (str_len s).
Proof.
  unfold str_ljust, str_len at 1.
  rewrite str_bytes_append, str_bytes_zeros, length_app, repeat_length.
  rewrite utf8_scan_padded by lia.
  fold (str_len s). lia.
Qed.

(** What a returned bundle is made of. *)
Lemma execute_function_returned_inv (py_int : string → option Z)
    (bytes_fromhex : string → option bytes) (w : World) (fr : FunctionResult) :
  outcome (execute_function py_int bytes_fromhex) w = Returned fr →
  ∃ (v : Z) (enc hex : bytes),
    py_int (env_validity w) = Some v ∧
    str_encode (env_asset_pair w) = Some enc ∧
    bytes_fromhex (env_model_version w) = Some hex ∧
    fr = {| market_context :=
              {| slot := 0;
                 asset_pair := take 32 (bytes_ljust 32 x00 enc);
                 price := 0; volume_24h := 0; volatility_1h := 0;
                 liquidity_depth := 0; source_bitmap := 0; source_count := 0 |};
            signal_assessment :=
              {| signal_type := MOMENTUM; direction := NEUTRAL; magnitude := 50;
                 confidence := 0; valid_from_slot := 0;
                 valid_until_slot := 0 + v; model_version := take 8 hex |};
            tee_receipt :=
              {| enclave_signer := zero_bytes 32;
                 attestation_hash := zero_bytes 32;
                 mr_enclave := zero_bytes 32; timestamp_slot := 0;
                 platform_version := 0 |} |}.
Proof.
  run_orchestrator.
  destruct (py_int _) as [v|]; cbn; [|discriminate].
  destruct (str_encode _) as [enc|]; cbn; [|discriminate].
  destruct (bytes_fromhex _) as [hex|]; cbn; [|discriminate].
  intros H. injection H as <-.
  exists v, enc, hex. repeat split.
Qed.




(** X6: in every bundle [execute_function] returns, the three byte fields of
    the receipt are 32 bytes long each, and the model version is the first
    eight bytes of what [bytes.fromhex] decoded from a string of at least
    sixteen characters (and as many bytes): at most eight bytes, and eight
    when at least eight were decoded. *)
Theorem result_field_widths (py_int : string → option Z)
    (bytes_fromhex : string → option bytes) (w : World) (fr : FunctionResult) :
  outcome (execute_function py_int bytes_fromhex) w = Returned fr →
  length (enclave_signer (tee_receipt fr)) = 32%nat ∧
  length (attestation_hash (tee_receipt fr)) = 32%nat ∧
  length (mr_enclave (tee_receipt fr)) = 32%nat ∧
  (16 ≤ String.length (env_model_version w))%nat ∧
  (16 ≤ str_len (env_model_version w))%nat ∧
  ∃ hex : bytes,
    bytes_fromhex (env_model_version w) = Some hex ∧
    model_version (signal_assessment fr) = take 8 hex ∧
    (length (model_version (signal_assessment fr)) ≤ 8)%nat ∧
    ((8 ≤ length hex)%nat →
     length (model_version (signal_assessment fr)) = 8%nat).
Proof.
  intros H.
  destruct (execute_function_returned_inv _ _ _ _ H)
    as (v & enc & hex & _ & _ & Hhex & ->).
  cbn [tee_receipt signal_assessment enclave_signer attestation_hash mr_enclave
       model_version].
  unfold zero_bytes. rewrite repeat_length.
  split; [reflexivity|]. split; [reflexivity|]. split; [reflexivity|].
  assert (16 ≤ str_len (env_model_version w))%nat as Hchars.
  { unfold env_model_version. rewrite str_ljust_len. lia. }
  split; [pose proof (str_len_le (env_model_version w)); lia|].
  split; [exact Hchars|].
  exists hex. split; [exact Hhex|]. split; [reflexivity|].
  rewrite length_take. split; [lia|]. intros Hge. lia.
Qed.

(** The statement at a default run. *)
Lemma result_field_widths_witness :
  outcome (execute_function sample_int sample_fromhex) world0
    = Returned sample_result ∧
  length (mr_enclave (tee_receipt sample_result)) = 32%nat.
Proof.
  split; [vm_compute; reflexivity|].
  apply (result_field_widths sample_int sample_fromhex world0 sample_result).
  vm_compute; reflexivity.
Defined.

(** X7: in every bundle [execute_function] returns, the context, the
    assessment and the receipt carry the same slot, the one
    [get_current_slot] returned (0): the context's slot, the start of the
    validity window and the receipt's timestamp are equal, and the window's
    length is the integer parsed from the validity string. *)
Theorem result_slots_agree (py_int : string → option Z)
    (bytes_fromhex : string → option bytes) (w : World) (fr : FunctionResult) :
  outcome (execute_function py_int bytes_fromhex) w = Returned fr →
  slot (market_context fr) = 0 ∧
  valid_from_slot (signal_assessment fr) = slot (market_context fr) ∧
  timestamp_slot (tee_receipt fr) = slot (market_context fr) ∧
  ∃ v : Z,
    py_int (env_validity w) = Some v ∧
    valid_until_slot (signal_assessment fr)
      - valid_from_slot (signal_assessment fr) = v.
Proof.
  intros H.
  destruct (execute_function_returned_inv _ _ _ _ H)
    as (v & enc & hex & Hint & _ & _ & ->).
  cbn. repeat split. exists v. split; [exact Hint | lia].
Qed.

(** The statement at a default run. *)
Lemma result_slots_agree_witness :
  outcome (execute_function sample_int sample_fromhex) world0
    = Returned sample_result ∧
  timestamp_slot (tee_receipt sample_result) = slot (market_context sample_result).
Proof.
  split; [vm_compute; reflexivity|].
  apply (result_slots_agree sample_int sample_fromhex world0 sample_result).
  vm_compute; reflexivity.
Defined.

(** ** What a run reads and what it leaves *)

(** X8: whatever the builtins do, [main] leaves the environment as it found
    it and only appends to the log: the records already there stay, in
    order, followed by the banner and at least one more record. *)
Theorem main_only_appends_to_the_log (py_int : string → option Z)
    (bytes_fromhex : string → option bytes) (w : World) :
  environ (world_after (main py_int bytes_fromhex) w) = environ w ∧
  ∃ added : list LogRecord,
    records (world_after (main py_int bytes_fromhex) w) =
      records w ++ banner ++ added ∧
    added ≠ [].
Proof.
  run_orchestrator.
  destruct (py_int _) as [v|]; cbn;
    [destruct (str_encode _) as [enc|]; cbn;
       [destruct (bytes_fromhex _) as [hex|]; cbn|]|];
    (split; [reflexivity|]; eexists;
     split; [rewrite <- !app_assoc; reflexivity | discriminate]).
Qed.

(** X10: no market datum reaches the assessment or the receipt. The three
    stages run one after the other return the same bundle for any two raw
    data, from any two worlds; and the assessment and the receipt computed
    from two contexts of the same slot are the same, whatever their prices,
    volumes, volatilities, liquidity depths, bitmaps and source counts. *)
Theorem stages_ignore_market_data (raw raw' : RawData) (ap : bytes) (s : Z)
    (mc mc' : MarketContext) (mv : bytes) (v : Z) (w w' : World) :
  (let stages := λ r : RawData,
     (m <- derive_market_context r ap s ;;
      a <- compute_signal_assessment m mv v ;;
      t <- capture_tee_attestation m a s ;;
      Py_return {| market_context := m; signal_assessment := a;
                   tee_receipt := t |}) in
   outcome (stages raw) w = outcome (stages raw') w') ∧
  (slot mc = slot mc' →
   let rest := λ m : MarketContext,
     (a <- compute_signal_assessment m mv v ;;
      t <- capture_tee_attestation m a s ;;
      Py_return (a, t)) in
   outcome (rest mc) w = outcome (rest mc') w').
Proof.
  split; [reflexivity|].
  intros Hslot. cbv zeta.
  unfold outcome, Py_bind, compute_signal_assessment, capture_tee_attestation,
    log, Py_return; cbn.
  rewrite Hslot. reflexivity.
Qed.

(** The statement at two contexts of slot 1000 with different market data. *)
Lemma stages_ignore_market_data_witness :
  slot busy_context = slot idle_context ∧
  outcome (a <- compute_signal_assessment busy_context sample_model_version 25 ;;
           t <- capture_tee_attestation busy_context a 1000 ;;
           Py_return (a, t)) world0 =
  outcome (a <- compute_signal_assessment idle_context sample_model_version 25 ;;
           t <- capture_tee_attestation idle_context a 1000 ;;
           Py_return (a, t)) world1.
Proof.
  split; [reflexivity|].
  apply (proj2 (stages_ignore_market_data raw_two_sources raw_three_old
                  sample_asset_pair 1000 busy_context idle_context
                  sample_model_version 25 world0 world1)).
  reflexivity.
Defined.

(** ** The scoring module and its mirror in [main.py] *)

(** X12: the two modules declare the same enumerations. Members of the same
    name have the same integer value in both; the values of the nine signal
    types are distinct and lie in 0..8, those of the three directions are
    distinct and lie in 0..2; and every member of one copy is the mirror of a
    member of the other. *)
Theorem enumerations_mirror :
  (∀ t, SignalType_value (SignalType_of_scoring t) = Scoring_SignalType_value t) ∧
  (∀ d, Direction_value (Direction_of_scoring d) = Scoring_Direction_value d) ∧
  (∀ t t', SignalType_value t = SignalType_value t' → t = t') ∧
  (∀ d d', Direction_value d = Direction_value d' → d = d') ∧
  (∀ t t', Scoring_SignalType_value t = Scoring_SignalType_value t' → t = t') ∧
  (∀ d d', Scoring_Direction_value d = Scoring_Direction_value d' → d = d') ∧
  (∀ t, 0 ≤ SignalType_value t ≤ 8) ∧
  (∀ d, 0 ≤ Direction_value d ≤ 2) ∧
  (∀ t, ∃ t0, SignalType_of_scoring t0 = t) ∧
  (∀ d, ∃ d0, Direction_of_scoring d0 = d).
Proof.
  split; [intros []; reflexivity|].
  split; [intros []; reflexivity|].
  split; [intros [] []; cbn; intros H; first [reflexivity | discriminate H]|].
  split; [intros [] []; cbn; intros H; first [reflexivity | discriminate H]|].
  split; [intros [] []; cbn; intros H; first [reflexivity | discriminate H]|].
  split; [intros [] []; cbn; intros H; first [reflexivity | discriminate H]|].
  split; [intros []; cbn; lia|].
  split; [intros []; cbn; lia|].
  split.
  - intros [];
      [exists Scoring.MOMENTUM | exists Scoring.MEAN_REVERSION
      | exists Scoring.VOLATILITY | exists Scoring.LIQUIDITY
      | exists Scoring.BREAKOUT | exists Scoring.RISK
      | exists Scoring.CORRELATION | exists Scoring.ARBITRAGE
      | exists Scoring.SENTIMENT]; reflexivity.
  - intros [];
      [exists Scoring.NEUTRAL | exists Scoring.LONG | exists Scoring.SHORT];
      reflexivity.
Qed.

(** The statement's injectivity at MOMENTUM. *)
Lemma enumerations_mirror_witness :
  SignalType_value MOMENTUM = SignalType_value MOMENTUM ∧ MOMENTUM = MOMENTUM.
Proof.
  split; [reflexivity|].
  apply (proj1 (proj2 (proj2 enumerations_mirror)) MOMENTUM MOMENTUM).
  reflexivity.
Defined.

(** X13: [score_market_context] runs its four sub-computations in the order
    type, direction, magnitude, confidence: it appends to the log, in that
    order, one warning of the logger "sso1.scoring" for each, and leaves the
    environment as it was. A call without a configuration behaves as a call
    with the default one. *)
Theorem score_market_context_log (slot price volume_24h volatility_1h
    liquidity_depth source_count : Z) (config : option Scoring.ScoringConfig)
    (w : World) :
  let scoring_warning := λ msg : string,
    {| lr_logger := "sso1.scoring"; lr_level := LVL_WARNING;
       lr_message := msg; lr_args := [] |} in
  world_after (Scoring.score_market_context slot price volume_24h volatility_1h
                 liquidity_depth source_count config) w =
    {| environ := environ w;
       records := records w ++
         [scoring_warning "determine_signal_type: NOT IMPLEMENTED - returning MOMENTUM";
          scoring_warning "compute_direction: NOT IMPLEMENTED - returning NEUTRAL";
          scoring_warning "compute_magnitude: NOT IMPLEMENTED - returning 50";
          scoring_warning "compute_confidence: NOT IMPLEMENTED - returning 0"] |} ∧
  Scoring.score_market_context slot price volume_24h volatility_1h
    liquidity_depth source_count None w =
  Scoring.score_market_context slot price volume_24h volatility_1h
    liquidity_depth source_count (Some Scoring.ScoringConfig_default) w.
Proof.
  cbv zeta. split; [|reflexivity].
  unfold world_after, Scoring.score_market_context,
    Scoring.determine_signal_type, Scoring.compute_direction,
    Scoring.compute_magnitude, Scoring.compute_confidence, Py_bind, Py_return,
    log, Scoring.logger.
  destruct config; cbn; rewrite <- !app_assoc; reflexivity.
Qed.

(** X14: [compute_signal_assessment] does not call the scoring module, and
    yet its assessment carries the four values [score_market_context] returns
    for the fields of the same context. It adds one record to the log, its
    own warning under the logger "sso1.function", and none under
    "sso1.scoring", where every call of [score_market_context] leaves four;
    the signal type and the direction are the members of the same name, the
    magnitude and the confidence are equal. *)
Theorem assessment_agrees_with_scoring (mc : MarketContext) (mv : bytes)
    (v : Z) (config : option Scoring.ScoringConfig) (w w' : World) :
  ∃ (sa : SignalAssessment) (r : Scoring.ScoringResult),
    outcome (compute_signal_assessment mc mv v) w = Returned sa ∧
    outcome (Scoring.score_market_context (slot mc) (price mc) (volume_24h mc)
               (volatility_1h mc) (liquidity_depth mc) (source_count mc)
               config) w' = Returned r ∧
    signal_type sa = SignalType_of_scoring (Scoring.signal_type r) ∧
    direction sa = Direction_of_scoring (Scoring.direction r) ∧
    magnitude sa = Scoring.magnitude r ∧
    confidence sa = Scoring.confidence r ∧
    records (world_after (compute_signal_assessment mc mv v) w) =
      records w ++
      [warning "compute_signal_assessment: NOT IMPLEMENTED - returning placeholder"] ∧
    (∀ rec : LogRecord,
       In rec (drop (length (records w))
                 (records (world_after (compute_signal_assessment mc mv v) w))) →
       lr_logger rec = "sso1.function" ∧ lr_logger rec ≠ Scoring.logger) ∧
    ∃ added : list LogRecord,
      records (world_after
                 (Scoring.score_market_context (slot mc) (price mc)
                    (volume_24h mc) (volatility_1h mc) (liquidity_depth mc)
                    (source_count mc) config) w') = records w' ++ added ∧
      length added = 4%nat ∧
      ∀ rec : LogRecord, In rec added → lr_logger rec = Scoring.logger.
Proof.
  eexists _, _.
  split; [apply compute_signal_assessment_returns|].
  split; [apply score_market_context_returns|].
  split; [reflexivity|]. split; [reflexivity|].
  split; [reflexivity|]. split; [reflexivity|].
  split; [reflexivity|]. split.
  - intros rec.
    change (records (world_after (compute_signal_assessment mc mv v) w))
      with (records w ++
            [warning "compute_signal_assessment: NOT IMPLEMENTED - returning placeholder"]).
    rewrite drop_app_length. intros [<-|[]].
    split; [reflexivity | discriminate].
  - eexists. split.
    + unfold world_after, Scoring.score_market_context,
        Scoring.determine_signal_type, Scoring.compute_direction,
        Scoring.compute_magnitude, Scoring.compute_confidence, Py_bind,
        Py_return, log.
      destruct config; cbn; rewrite <- !app_assoc; reflexivity.
    + split; [reflexivity|].
      intros rec [<-|[<-|[<-|[<-|[]]]]]; reflexivity.
Qed.

(** ** The request *)

(** X15: [parse_switchboard_request] takes the asset pair and the validity
    from the environment when they are set there, and falls back on
    "SOL/USDC" and on the string "25" when they are not; the validity is
    what [int] makes of the string, and a string [int] rejects ends the call
    with ValueError whatever the asset pair. *)
Theorem request_follows_environment (py_int : string → option Z) (w : World)
    (a s : string) (v : Z) :
  let w_set :=
    {| environ := <["DEFAULT_ASSET_PAIR" := a]>
                    (<["DEFAULT_VALIDITY_SLOTS" := s]> (environ w));
       records := records w |} in
  (py_int s = Some v →
   outcome (parse_switchboard_request py_int) w_set =
     Returned {| req_asset_pair := a; req_validity_slots := v |}) ∧
  (py_int s = None →
   outcome (parse_switchboard_request py_int) w_set = Raised ValueError) ∧
  (environ w !! "DEFAULT_ASSET_PAIR" = None →
   environ w !! "DEFAULT_VALIDITY_SLOTS" = None →
   py_int "25" = Some v →
   outcome (parse_switchboard_request py_int) w =
     Returned {| req_asset_pair := "SOL/USDC"; req_validity_slots := v |}).
Proof.
  cbv zeta.
  unfold outcome, parse_switchboard_request, Py_bind, Py_return, getenv, log;
    cbn.
  rewrite lookup_insert_eq.
  rewrite lookup_insert_ne by discriminate. rewrite lookup_insert_eq. cbn.
  split; [intros ->; reflexivity|].
  split; [intros ->; reflexivity|].
  intros Ha Hs Hv. rewrite Ha, Hs; cbn. rewrite Hv. reflexivity.
Qed.

(** The statement at an environment that asks for BTC/USDC. *)
Lemma request_follows_environment_witness :
  sample_int "25" = Some 25 ∧
  outcome (parse_switchboard_request sample_int) world_btc =
    Returned {| req_asset_pair := "BTC/USDC"; req_validity_slots := 25 |}.
Proof.
  split; [reflexivity|].
  apply (proj1 (request_follows_environment sample_int world0
                  "BTC/USDC" "25" 25)).
  reflexivity.
Defined.
